(** * gtin_validate: validation and repair of GTIN-8/12/13/14 codes

    Shallow embedding of [src/utils/mod.rs] and of the [check] / [fix] ([fix'] here, [fix] being a keyword)
    functions of [src/gtin8], [src/gtin12], [src/gtin13] and [src/gtin14]
    (the non-SIMD build).

    - A Rust [&str] is a list of Unicode scalar values ([N]); [str.len()] is
      the length of its UTF-8 encoding and [as_bytes] that encoding.
    - Rust code runs in a panic monad: [None] is a panic.  Indexing out of
      bounds and integer overflow/underflow panic (the semantics of a debug
      build, the one [cargo test] uses). *)

From Stdlib Require Import List NArith Arith Bool Lia.
From Stdlib Require Strings.String Strings.Ascii.
Import (notations) Strings.String.
Import ListNotations.

Open Scope N_scope.

(** ** The panic monad *)

Definition M (A : Type) : Type := option A.

Definition ret {A : Type} (a : A) : M A := Some a.

Definition bind {A B : Type} (m : M A) (k : A -> M B) : M B :=
  match m with
  | Some a => k a
  | None => None
  end.

Notation "'let!' x ':=' m 'in' k" := (bind m (fun x => k))
  (at level 200, x name, m at level 100, k at level 200).

(** Checked machine arithmetic: overflow and underflow panic. *)
Definition add_u8 (a b : N) : M N := if a + b <? 256 then ret (a + b) else None.
Definition sub_u8 (a b : N) : M N := if b <=? a then ret (a - b) else None.
Definition add_u16 (a b : N) : M N := if a + b <? 65536 then ret (a + b) else None.
Definition mul_u16 (a b : N) : M N := if a * b <? 65536 then ret (a * b) else None.

(** Slice indexing [bytes[i]]: out of bounds panics. *)
Definition index (l : list N) (i : nat) : M N := nth_error l i.

(** Rust's [Result]. *)
Inductive result (A E : Type) : Type :=
| Ok (a : A)
| Err (e : E).
Arguments Ok {A E} a.
Arguments Err {A E} e.

(** ** Strings *)

(** UTF-8 encoding of one scalar value. *)
Definition utf8_encode (c : N) : list N :=
  if c <? 0x80 then [c]
  else if c <? 0x800 then [0xC0 + c / 64; 0x80 + c mod 64]
  else if c <? 0x10000 then
    [0xE0 + c / 4096; 0x80 + (c / 64) mod 64; 0x80 + c mod 64]
  else
    [0xF0 + c / 262144; 0x80 + (c / 4096) mod 64; 0x80 + (c / 64) mod 64;
     0x80 + c mod 64].

(** [str::as_bytes] *)
Definition as_bytes (s : list N) : list N := flat_map utf8_encode s.

(** [str::len]: length in bytes. *)
Definition str_len (s : list N) : nat := length (as_bytes s).

(** [char::is_ascii_digit] *)
Definition is_ascii_digit (c : N) : bool := (48 <=? c) && (c <=? 57).

(** [str::is_ascii]: every character is below 128. *)
Definition is_ascii (s : list N) : bool := forallb (fun c => c <? 128) s.

(** [char::is_whitespace]: the Unicode White_Space property. *)
Definition is_whitespace (c : N) : bool :=
  (c =? 32) || ((9 <=? c) && (c <=? 13)) ||
  ((127 <? c) &&
   ((c =? 0x85) || (c =? 0xA0) || (c =? 0x1680) ||
    ((0x2000 <=? c) && (c <=? 0x200A)) ||
    (c =? 0x2028) || (c =? 0x2029) || (c =? 0x202F) || (c =? 0x205F) ||
    (c =? 0x3000))).

(** [str::trim_start] (alias [trim_left]). *)
Fixpoint trim_start (s : list N) : list N :=
  match s with
  | [] => []
  | c :: s' => if is_whitespace c then trim_start s' else s
  end.

(** [str::trim_end] (alias [trim_right]). *)
Definition trim_end (s : list N) : list N := rev (trim_start (rev s)).

(** [str::trim]: both ends, [char::is_whitespace]. *)
Definition trim (s : list N) : list N := trim_end (trim_start s).

(** ** utils/mod.rs *)

(** The loop [for i in 2..bytes.len() + 1] of [compute_check_digit]; [fuel]
    is the number of iterations left. *)
Fixpoint ccd_loop (bytes : list N) (i : nat) (fuel : nat) (odd even : N)
  : M (N * N) :=
  match fuel with
  | O => ret (odd, even)
  | S fuel' =>
      let! b := index bytes (length bytes - i) in
      let! curr := sub_u8 b 48 in
      if Nat.even i then
        let! odd' := add_u16 odd curr in
        ccd_loop bytes (S i) fuel' odd' even
      else
        let! even' := add_u16 even curr in
        ccd_loop bytes (S i) fuel' odd even'
  end.

(** [utils::compute_check_digit] ([u16] accumulators). *)
Definition compute_check_digit (bytes : list N) : M N :=
  let! acc := ccd_loop bytes 2 (length bytes + 1 - 2) 0 0 in
  let (odd, even) := acc in
  let! t := mul_u16 3 odd in
  let! s := add_u16 t even in
  let check := s mod 10 in
  if 0 <? check then sub_u8 10 check else ret check.

(** [utils::zero_pad] *)
Definition zero_pad (upc : list N) (size : nat) : list N :=
  if Nat.leb size (str_len upc) then upc
  else repeat 48 (size - str_len upc) ++ upc.

(** [utils::is_ascii_numeric] *)
Definition is_ascii_numeric (s : list N) : bool := forallb is_ascii_digit s.

(** ** The check-digit formula in the words of the spec (§4.1)

    [ds] lists the digits from the one immediately left of the check
    position leftward; the weights alternate 3, 1, 3, ... starting with 3. *)
Fixpoint weighted_sum (ds : list N) (three : bool) : N :=
  match ds with
  | [] => 0
  | d :: ds' => (if three then 3 else 1) * (d - 48) + weighted_sum ds' (negb three)
  end.

Definition spec_check_digit (bytes : list N) : N :=
  let s := weighted_sum (tl (rev bytes)) true in (10 - s mod 10) mod 10.

Definition s2l (s : String.string) : list N :=
  map (fun a => N.of_nat (Ascii.nat_of_ascii a)) (String.list_ascii_of_string s).
Arguments s2l s%_string.

Example ccd_t1 : compute_check_digit (s2l "123456789012") = Some 2. Proof. reflexivity. Qed.
Example ccd_t2 : compute_check_digit (s2l "9249874313545") = Some 5. Proof. reflexivity. Qed.
Example ccd_t3 : compute_check_digit (s2l "92498743135447") = Some 7. Proof. reflexivity. Qed.
Example ccd_t4 : compute_check_digit (s2l "999999999993") = Some 3. Proof. reflexivity. Qed.
Example ccd_t5 : compute_check_digit (repeat 57 3641) = Some 0. Proof. vm_compute. reflexivity. Qed.
Example ccd_t6 : compute_check_digit (repeat 57 3642) = None. Proof. vm_compute. reflexivity. Qed.

(** ** The per-length validators *)

(** [FixError]: each of the four modules declares this same enum. *)
Inductive FixError : Type :=
| NonAsciiString
| TooLong
| CheckDigitIncorrect.

(** src/gtin8/mod.rs *)
Module Gtin8.

Definition check (code : list N) : M bool :=
  if negb (Nat.eqb (str_len code) 8) then ret false else
  if negb (is_ascii_numeric code) then ret false else
  let bytes := as_bytes code in
  let! check := compute_check_digit bytes in
  let! b7 := index bytes 7 in
  let! d := sub_u8 b7 48 in
  if negb (check =? d) then ret false else ret true.

Definition fix' (code : list N) : M (result (list N) FixError) :=
  let fixed := trim code in
  if negb (is_ascii fixed) then ret (Err NonAsciiString) else
  if Nat.ltb 8 (str_len fixed) then ret (Err TooLong) else
  let fixed := zero_pad fixed 8 in
  let! ok := check fixed in
  if negb ok then ret (Err CheckDigitIncorrect) else ret (Ok fixed).

End Gtin8.

(** src/gtin12/mod.rs *)
Module Gtin12.

Definition check (code : list N) : M bool :=
  if negb (Nat.eqb (str_len code) 12) then ret false else
  if negb (is_ascii_numeric code) then ret false else
  let bytes := as_bytes code in
  let! check := compute_check_digit bytes in
  let! c := add_u8 check 48 in
  let! b11 := index bytes 11 in
  ret (c =? b11).

Definition fix' (code : list N) : M (result (list N) FixError) :=
  let fixed := trim code in
  if negb (is_ascii fixed) then ret (Err NonAsciiString) else
  if Nat.ltb 12 (str_len fixed) then ret (Err TooLong) else
  let fixed := zero_pad fixed 12 in
  let! ok := check fixed in
  if negb ok then ret (Err CheckDigitIncorrect) else ret (Ok fixed).

End Gtin12.

(** src/gtin13/mod.rs.  Its [check] calls [utils::is_number(bytes, 13)]
    and a two-argument [utils::compute_check_digit(bytes, 13)], neither of
    which is in src/utils/mod.rs. *)
Module Gtin13.

(** Modelled from the spec: [utils::is_number(bytes, length)], missing from
    src/utils/mod.rs; §4.1 and §4.2: every one of the [length] characters
    is an ASCII decimal digit. *)
Definition is_number (bytes : list N) (length : nat) : bool :=
  forallb is_ascii_digit (firstn length bytes).

(** Modelled from the spec: the two-argument
    [utils::compute_check_digit(digits, length)], missing from
    src/utils/mod.rs; §4.1: only the first [length - 1] digits are used,
    weighted 3, 1, 3, ... from the rightmost of them leftward, and the
    result is [(10 - (weighted_sum mod 10)) mod 10]. *)
Definition compute_check_digit (bytes : list N) (length : nat) : N :=
  let s := weighted_sum (rev (firstn (length - 1) bytes)) true in
  (10 - s mod 10) mod 10.

Definition check (code : list N) : M bool :=
  if negb (is_ascii code) then ret false else
  if negb (Nat.eqb (str_len code) 13) then ret false else
  let bytes := as_bytes code in
  if negb (is_number bytes 13) then ret false else
  let check := compute_check_digit bytes 13 in
  let! b12 := index bytes 12 in
  let! d := sub_u8 b12 48 in
  if negb (check =? d) then ret false else ret true.

Definition fix' (code : list N) : M (result (list N) FixError) :=
  let fixed := trim_end (trim_start code) in
  if negb (is_ascii fixed) then ret (Err NonAsciiString) else
  if Nat.ltb 13 (str_len fixed) then ret (Err TooLong) else
  let fixed := zero_pad fixed 13 in
  let! ok := check fixed in
  if negb ok then ret (Err CheckDigitIncorrect) else ret (Ok fixed).

End Gtin13.

(** src/gtin14/mod.rs *)
Module Gtin14.

Definition check (code : list N) : M bool :=
  if negb (Nat.eqb (str_len code) 14) then ret false else
  if negb (is_ascii_numeric code) then ret false else
  let bytes := as_bytes code in
  let! check := compute_check_digit bytes in
  let! c := add_u8 check 48 in
  let! b13 := index bytes 13 in
  ret (c =? b13).

Definition fix' (code : list N) : M (result (list N) FixError) :=
  let fixed := trim code in
  if negb (is_ascii fixed) then ret (Err NonAsciiString) else
  if Nat.ltb 14 (str_len fixed) then ret (Err TooLong) else
  let fixed := zero_pad fixed 14 in
  let! ok := check fixed in
  if negb ok then ret (Err CheckDigitIncorrect) else ret (Ok fixed).

End Gtin14.

(** The four supported lengths, and the public functions of each. *)
Inductive gtin : Type := GTIN8 | GTIN12 | GTIN13 | GTIN14.

Definition code_len (g : gtin) : nat :=
  match g with GTIN8 => 8 | GTIN12 => 12 | GTIN13 => 13 | GTIN14 => 14 end.

Definition check (g : gtin) : list N -> M bool :=
  match g with
  | GTIN8 => Gtin8.check | GTIN12 => Gtin12.check
  | GTIN13 => Gtin13.check | GTIN14 => Gtin14.check
  end.

Definition fix' (g : gtin) : list N -> M (result (list N) FixError) :=
  match g with
  | GTIN8 => Gtin8.fix' | GTIN12 => Gtin12.fix'
  | GTIN13 => Gtin13.fix' | GTIN14 => Gtin14.fix'
  end.

(** src/lib.rs: the older UPC-A API of the crate ([u8] accumulators). *)
Module Upc.

Definition mul_u8 (a b : N) : M N := if a * b <? 256 then ret (a * b) else None.

(** The loop [for i in 0..11] of [compute_upca_check_digit]. *)
Fixpoint cucd_loop (upc : list N) (i : nat) (fuel : nat) (odd even : N)
  : M (N * N) :=
  match fuel with
  | O => ret (odd, even)
  | S fuel' =>
      let! b := index upc i in
      let! curr := sub_u8 b 48 in
      if Nat.even i then
        let! odd' := add_u8 odd curr in cucd_loop upc (S i) fuel' odd' even
      else
        let! even' := add_u8 even curr in cucd_loop upc (S i) fuel' odd even'
  end.

Definition compute_upca_check_digit (upc : list N) : M N :=
  let! acc := cucd_loop upc 0 11 0 0 in
  let (odd, even) := acc in
  let! t := mul_u8 3 odd in
  let! s := add_u8 t even in
  let check := s mod 10 in
  if 0 <? check then sub_u8 10 check else ret check.

(** [zero_pad] of lib.rs (the same body as [utils::zero_pad]). *)
Definition zero_pad (upc : list N) (size : nat) : list N :=
  if Nat.leb size (str_len upc) then upc
  else repeat 48 (size - str_len upc) ++ upc.

(** The loop [for i in 0..12] of [check_upca], returning [false] early on
    a byte outside ['0'..='9']. *)
Fixpoint digits_loop (bytes : list N) (i : nat) (fuel : nat) : M bool :=
  match fuel with
  | O => ret true
  | S fuel' =>
      let! b := index bytes i in
      if (b <? 48) || (48 + 9 <? b) then ret false
      else digits_loop bytes (S i) fuel'
  end.

Definition check_upca (upc : list N) : M bool :=
  if negb (is_ascii upc) then ret false else
  if negb (Nat.eqb (str_len upc) 12) then ret false else
  let bytes := as_bytes upc in
  let! ok := digits_loop bytes 0 12 in
  if negb ok then ret false else
  let! check := compute_upca_check_digit bytes in
  let! b11 := index bytes 11 in
  if (b11 <? 48) || (48 + 9 <? b11) then ret false else
  let! d := sub_u8 b11 48 in
  if negb (check =? d) then ret false else ret true.

Definition fix_upca (upc : list N) : M (result (list N) String.string) :=
  let fixed := trim_end (trim_start upc) in
  if negb (is_ascii upc) then ret (Err "Cannot operate on non-ASCII data"%string) else
  if Nat.ltb 12 (str_len fixed) then
    ret (Err "Cannot fix UPC-A. Length is longer than 12."%string) else
  let fixed := zero_pad fixed 12 in
  let! ok := check_upca fixed in
  if negb ok then ret (Err "Final validation failed"%string) else ret (Ok fixed).

End Upc.

(** The messages of [fix_upca] for the errors that [gtin12::fix] reports as
    [FixError] values. *)
Definition upca_error (e : FixError) : String.string :=
  match e with
  | NonAsciiString => "Cannot operate on non-ASCII data"
  | TooLong => "Cannot fix UPC-A. Length is longer than 12."
  | CheckDigitIncorrect => "Final validation failed"
  end.

Definition map_err {A E F : Type} (f : E -> F) (r : result A E) : result A F :=
  match r with
  | Ok a => Ok a
  | Err e => Err (f e)
  end.

(** src/utils/mod.rs, [feature = "simd"]: a [packed_simd::u8x16] is a list
    of 16 lanes; lane arithmetic wraps modulo 256. *)
Module Simd.

Definition lanes2 (f : N -> N -> N) (v w : list N) : list N :=
  map (fun p => f (fst p) (snd p)) (combine v w).

Definition splat (x : N) : list N := repeat x 16.

(** [vect - x]: wrapping lane subtraction. *)
Definition vsub (vect : list N) (x : N) : list N :=
  map (fun a => (a + 256 - x) mod 256) vect.

Definition GT : list N := splat 57.
Definition LT : list N := splat 48.

(** [check_ascii_simd]: no lane above 57 nor below 48. *)
Definition check_ascii_simd (vect : list N) : bool :=
  let gt := map (fun p => snd p <? fst p) (combine vect GT) in
  let lt := map (fun p => fst p <? snd p) (combine vect LT) in
  let res := map (fun p => fst p || snd p) (combine gt lt) in
  negb (existsb (fun b => b) res).

Definition MUL : list N := [3; 1; 3; 1; 3; 1; 3; 1; 3; 1; 3; 1; 3; 1; 3; 1].

(** [packed_simd]'s [wrapping_sum]. *)
Definition wrapping_sum (vect : list N) : N :=
  fold_left (fun acc x => (acc + x) mod 256) vect 0.

Definition compute_check_digit_simd (vect : list N) : M N :=
  let vect := lanes2 (fun a m => (a * m) mod 256) vect MUL in
  let check := wrapping_sum vect mod 10 in
  if 0 <? check then sub_u8 10 check else ret check.

(** The arguments [bytes[i], ..., bytes[i + fuel - 1]] of [u8x16::new],
    each index checked. *)
Fixpoint index_range (bytes : list N) (i : nat) (fuel : nat) : M (list N) :=
  match fuel with
  | O => ret []
  | S fuel' =>
      let! b := index bytes i in
      let! rest := index_range bytes (S i) fuel' in
      ret (b :: rest)
  end.

End Simd.

(** src/gtin12/mod.rs, the [check] of the [simd] build. *)
Module Gtin12Simd.

Definition check (code : list N) : M bool :=
  if negb (Nat.eqb (str_len code) 12) then ret false else
  let bytes := as_bytes code in
  let! body := Simd.index_range bytes 0 11 in
  let vect := [48; 48; 48; 48] ++ body ++ [48] in
  if negb (Simd.check_ascii_simd vect) then ret false else
  let! check := Simd.compute_check_digit_simd (Simd.vsub vect 48) in
  let! c := add_u8 check 48 in
  let! b11 := index bytes 11 in
  ret (c =? b11).

End Gtin12Simd.

(** src/gtin14/mod.rs, the [check] of the [simd] build. *)
Module Gtin14Simd.

Definition check (code : list N) : M bool :=
  if negb (Nat.eqb (str_len code) 14) then ret false else
  let bytes := as_bytes code in
  let! body := Simd.index_range bytes 0 13 in
  let vect := [48; 48] ++ body ++ [48] in
  if negb (Simd.check_ascii_simd vect) then ret false else
  let! check := Simd.compute_check_digit_simd (Simd.vsub vect 48) in
  let! c := add_u8 check 48 in
  let! b13 := index bytes 13 in
  ret (c =? b13).

End Gtin14Simd.

Example check_t1 : Gtin12.check (s2l "123456789012") = Some true. Proof. reflexivity. Qed.
Example check_t2 : Gtin12.check (s2l "123456789013") = Some false. Proof. reflexivity. Qed.
Example check_t3 : Gtin14.check (s2l "14567815983469") = Some true. Proof. reflexivity. Qed.
Example check_t4 : Gtin13.check (s2l "4459121265748") = Some true. Proof. reflexivity. Qed.
Example check_t5 : Gtin13.check (s2l "4459121265747") = Some false. Proof. reflexivity. Qed.
Example check_t6 : Gtin8.check (s2l "14567810") = Some true. Proof. reflexivity. Qed.
Example check_t7 : Gtin8.check [0x2764] = Some false. Proof. reflexivity. Qed.
Example fix_t1 : Gtin12.fix' (s2l "87248795257") = Some (Ok (s2l "087248795257")). Proof. reflexivity. Qed.
Example fix_t2 : Gtin12.fix' (s2l "0000000000000") = Some (Err TooLong). Proof. reflexivity. Qed.
Example fix_t3 : Gtin8.fix' (s2l "5766796") = Some (Ok (s2l "05766796")). Proof. reflexivity. Qed.
Example fix_t4 : Gtin13.fix' (s2l "4823011492925 ") = Some (Ok (s2l "4823011492925")). Proof. reflexivity. Qed.
Example fix_t5 : Gtin8.fix' [0x2764] = Some (Err NonAsciiString). Proof. reflexivity. Qed.
Example fix_t6 : Gtin12.fix' [0x3000; 48] = Some (Ok (repeat 48 12)). Proof. reflexivity. Qed.
Example upca_t1 : Upc.check_upca (s2l "999999999993") = Some true. Proof. reflexivity. Qed.
Example upca_t2 : Upc.compute_upca_check_digit (s2l "036000291452") = Some 2. Proof. reflexivity. Qed.
Example upca_t3 : Upc.fix_upca [0x3000; 48] = Some (Err "Cannot operate on non-ASCII data"%string). Proof. reflexivity. Qed.
Example simd_t1 : Gtin12Simd.check (s2l "123456789012") = Some true. Proof. reflexivity. Qed.
Example simd_t2 : Gtin12Simd.check (s2l "123456789013") = Some false. Proof. reflexivity. Qed.
Example simd_t3 : Gtin14Simd.check (s2l "14567815983469") = Some true. Proof. reflexivity. Qed.
Example simd_t4 : Gtin14Simd.check (s2l "14567815983468") = Some false. Proof. reflexivity. Qed.
Example simd_t5 : Gtin14Simd.check (s2l "99999999999999") = Gtin14.check (s2l "99999999999999"). Proof. reflexivity. Qed.

(** ** compute_check_digit: the loop as a walk over the reversed digits *)

(** The body of the loop, read on [tl (rev bytes)]: [par] is [i % 2 == 0]. *)
Fixpoint ccd_walk (ds : list N) (par : bool) (odd even : N) : M (N * N) :=
  match ds with
  | [] => ret (odd, even)
  | b :: ds' =>
      let! curr := sub_u8 b 48 in
      if par then
        let! odd' := add_u16 odd curr in ccd_walk ds' (negb par) odd' even
      else
        let! even' := add_u16 even curr in ccd_walk ds' (negb par) odd even'
  end.

Lemma skipn_nth_error (l : list N) (k : nat) (x : N) :
  nth_error l k = Some x -> skipn k l = x :: skipn (S k) l.
Proof.
  revert l; induction k as [|k IH]; intros [|y l] H; simpl in *;
    try discriminate.
  - injection H as ->. reflexivity.
  - apply IH, H.
Qed.

Lemma ccd_loop_walk (bytes : list N) :
  forall fuel i odd even,
  (1 <= i)%nat -> (i - 1 + fuel <= length bytes)%nat ->
  ccd_loop bytes i fuel odd even =
  ccd_walk (firstn fuel (skipn (i - 1) (rev bytes))) (Nat.even i) odd even.
Proof.
  induction fuel as [|fuel IH]; intros i odd even Hi Hlen.
  - reflexivity.
  - cbn [ccd_loop]. unfold index.
    assert (Hrev : nth_error (rev bytes) (i - 1) =
                   nth_error bytes (length bytes - i)).
    { rewrite nth_error_rev.
      destruct (Nat.ltb_spec (i - 1) (length bytes)); [|lia].
      f_equal. lia. }
    rewrite <- Hrev.
    destruct (nth_error (rev bytes) (i - 1)) as [b|] eqn:E.
    + rewrite (skipn_nth_error _ _ _ E). cbn [firstn ccd_walk bind].
      replace (S (i - 1)) with (S i - 1)%nat by lia.
      destruct (sub_u8 b 48) as [curr|]; cbn [bind]; [|reflexivity].
      destruct (Nat.even i) eqn:Ev.
      * destruct (add_u16 odd curr); cbn [bind]; [|reflexivity].
        rewrite IH by lia. rewrite Nat.even_succ, <- Nat.negb_even, Ev.
        reflexivity.
      * destruct (add_u16 even curr); cbn [bind]; [|reflexivity].
        rewrite IH by lia. rewrite Nat.even_succ, <- Nat.negb_even, Ev.
        reflexivity.
    + apply nth_error_None in E. rewrite length_rev in E. lia.
Qed.

Lemma ccd_loop_start (bytes : list N) :
  ccd_loop bytes 2 (length bytes + 1 - 2) 0 0 = ccd_walk (tl (rev bytes)) true 0 0.
Proof.
  destruct bytes as [|b bytes'] eqn:Eb; [reflexivity|].
  rewrite <- Eb. rewrite ccd_loop_walk by (subst; simpl; lia).
  replace (2 - 1)%nat with 1%nat by lia.
  rewrite firstn_all2.
  - destruct (rev bytes); reflexivity.
  - rewrite length_skipn, length_rev. lia.
Qed.

(** The last step of [compute_check_digit], from the sum [3 * odd + even]. *)
Lemma ccd_finish (s : N) :
  (if 0 <? s mod 10 then sub_u8 10 (s mod 10) else ret (s mod 10)) =
  Some ((10 - s mod 10) mod 10).
Proof.
  pose proof (N.mod_lt s 10 ltac:(lia)) as Hlt.
  destruct (N.ltb_spec 0 (s mod 10)) as [Hpos|Hz].
  - unfold sub_u8. destruct (N.leb_spec (s mod 10) 10); [|lia].
    rewrite (N.mod_small (10 - s mod 10)) by lia. reflexivity.
  - apply N.le_0_r in Hz. rewrite Hz. reflexivity.
Qed.

Lemma compute_check_digit_walk (bytes : list N) :
  compute_check_digit bytes =
  let! acc := ccd_walk (tl (rev bytes)) true 0 0 in
  let (odd, even) := acc in
  let! t := mul_u16 3 odd in
  let! s := add_u16 t even in
  Some ((10 - s mod 10) mod 10).
Proof.
  unfold compute_check_digit. rewrite ccd_loop_start.
  destruct (ccd_walk _ _ _ _) as [[odd even]|]; cbn [bind]; [|reflexivity].
  destruct (mul_u16 3 odd); cbn [bind]; [|reflexivity].
  destruct (add_u16 _ even); cbn [bind]; [|reflexivity].
  apply ccd_finish.
Qed.

(** [compute_check_digit] never reads the last byte. *)
Lemma ccd_last_irrelevant (pre : list N) (x y : N) :
  compute_check_digit (pre ++ [x]) = compute_check_digit (pre ++ [y]).
Proof.
  rewrite !compute_check_digit_walk, !rev_unit. reflexivity.
Qed.

(** ** Digits *)

Lemma digit_range (c : N) : is_ascii_digit c = true -> 48 <= c <= 57.
Proof.
  unfold is_ascii_digit. rewrite andb_true_iff, !N.leb_le. auto.
Qed.

Lemma numeric_app (l1 l2 : list N) :
  is_ascii_numeric (l1 ++ l2) = is_ascii_numeric l1 && is_ascii_numeric l2.
Proof. apply forallb_app. Qed.

Lemma numeric_rev (l : list N) : is_ascii_numeric (rev l) = is_ascii_numeric l.
Proof.
  induction l as [|a l IH]; [reflexivity|].
  cbn [rev]. rewrite numeric_app, IH.
  unfold is_ascii_numeric; cbn [forallb].
  rewrite andb_true_r, andb_comm. reflexivity.
Qed.

Lemma numeric_tl (l : list N) :
  is_ascii_numeric l = true -> is_ascii_numeric (tl l) = true.
Proof.
  destruct l as [|a l]; [auto|].
  unfold is_ascii_numeric; cbn [forallb tl]. rewrite andb_true_iff. tauto.
Qed.

(** ** compute_check_digit on digit sequences *)

Lemma ccd_walk_ok : forall ds par odd even,
  is_ascii_numeric ds = true ->
  3 * odd + even + weighted_sum ds par < 65536 ->
  exists o e, ccd_walk ds par odd even = Some (o, e) /\
              3 * o + e = 3 * odd + even + weighted_sum ds par.
Proof.
  induction ds as [|d ds IH]; intros par odd even Hnum Hb.
  - exists odd, even. split; [reflexivity|]. cbn [weighted_sum]. lia.
  - unfold is_ascii_numeric in Hnum; cbn [forallb] in Hnum.
    apply andb_prop in Hnum as [Hd Hnum]. apply digit_range in Hd.
    cbn [ccd_walk weighted_sum] in *.
    unfold sub_u8 at 1. destruct (N.leb_spec 48 d); [|lia]. cbn [bind ret].
    destruct par; cbn [negb] in *.
    + unfold add_u16 at 1.
      destruct (N.ltb_spec (odd + (d - 48)) 65536); [|lia]. cbn [bind ret].
      destruct (IH false (odd + (d - 48)) even Hnum) as (o & e & H1 & H2);
        [lia|].
      exists o, e. split; [exact H1|lia].
    + unfold add_u16 at 1.
      destruct (N.ltb_spec (even + (d - 48)) 65536); [|lia]. cbn [bind ret].
      destruct (IH true odd (even + (d - 48)) Hnum) as (o & e & H1 & H2);
        [lia|].
      exists o, e. split; [exact H1|lia].
Qed.

Lemma weighted_sum_bound : forall ds, is_ascii_numeric ds = true ->
  weighted_sum ds true <= 18 * N.of_nat (length ds) + 9 /\
  weighted_sum ds false <= 18 * N.of_nat (length ds).
Proof.
  induction ds as [|d ds IH]; intros Hnum; [cbn; lia|].
  unfold is_ascii_numeric in Hnum; cbn [forallb] in Hnum.
  apply andb_prop in Hnum as [Hd Hnum]. apply digit_range in Hd.
  destruct (IH Hnum) as [H1 H2].
  cbn [weighted_sum negb length]. rewrite Nat2N.inj_succ. lia.
Qed.

(** Up to 3641 digits the [u16] sums cannot overflow, and the result is the
    formula of the spec. *)
Lemma ccd_value (bytes : list N) :
  is_ascii_numeric bytes = true -> (length bytes <= 3641)%nat ->
  compute_check_digit bytes = Some (spec_check_digit bytes).
Proof.
  intros Hnum Hlen. rewrite compute_check_digit_walk. unfold spec_check_digit.
  assert (Hn : is_ascii_numeric (tl (rev bytes)) = true)
    by (apply numeric_tl; rewrite numeric_rev; exact Hnum).
  assert (Hl : (length (tl (rev bytes)) <= 3640)%nat).
  { pose proof (length_rev bytes) as Er.
    destruct (rev bytes) as [|x r]; cbn [tl length] in *; lia. }
  destruct (weighted_sum_bound _ Hn) as [Hw _].
  destruct (ccd_walk_ok (tl (rev bytes)) true 0 0 Hn) as (o & e & H1 & H2);
    [lia|].
  rewrite H1. cbn [bind].
  unfold mul_u16. destruct (N.ltb_spec (3 * o) 65536); [|lia]. cbn [bind ret].
  unfold add_u16. destruct (N.ltb_spec (3 * o + e) 65536); [|lia].
  cbn [bind ret].
  replace (3 * o + e) with (weighted_sum (tl (rev bytes)) true) by lia.
  reflexivity.
Qed.

Lemma spec_check_digit_lt (bytes : list N) : spec_check_digit bytes < 10.
Proof. unfold spec_check_digit. apply N.mod_lt. lia. Qed.

Lemma spec_check_digit_last (pre : list N) (x y : N) :
  spec_check_digit (pre ++ [x]) = spec_check_digit (pre ++ [y]).
Proof. unfold spec_check_digit. rewrite !rev_unit. reflexivity. Qed.

(** ** ASCII strings *)

Lemma ascii_encode (c : N) : c < 128 -> utf8_encode c = [c].
Proof.
  intros H. unfold utf8_encode. destruct (N.ltb_spec c 0x80); [reflexivity|lia].
Qed.

Lemma ascii_as_bytes (s : list N) : is_ascii s = true -> as_bytes s = s.
Proof.
  induction s as [|c s IH]; [reflexivity|].
  unfold is_ascii; cbn [forallb]. intros H. apply andb_prop in H as [Hc Hs].
  change (as_bytes (c :: s)) with (utf8_encode c ++ as_bytes s).
  rewrite ascii_encode by (apply N.ltb_lt; exact Hc).
  cbn [app]. f_equal. apply IH, Hs.
Qed.

Lemma ascii_str_len (s : list N) : is_ascii s = true -> str_len s = length s.
Proof. intros H. unfold str_len. rewrite ascii_as_bytes by exact H. reflexivity. Qed.

Lemma numeric_ascii (s : list N) : is_ascii_numeric s = true -> is_ascii s = true.
Proof.
  unfold is_ascii_numeric, is_ascii. rewrite !forallb_forall.
  intros H c Hc. specialize (H c Hc). apply digit_range in H. apply N.ltb_lt. lia.
Qed.

Lemma ascii_app (l1 l2 : list N) :
  is_ascii (l1 ++ l2) = is_ascii l1 && is_ascii l2.
Proof. apply forallb_app. Qed.

Lemma nth_error_snoc (pre : list N) (a : N) (n : nat) :
  length pre = n -> nth_error (pre ++ [a]) n = Some a.
Proof.
  intros <-. rewrite nth_error_app2 by lia. rewrite Nat.sub_diag. reflexivity.
Qed.

Lemma numeric_snoc (s : list N) :
  is_ascii_numeric s = true -> s <> [] ->
  exists pre a, s = pre ++ [a] /\ is_ascii_numeric pre = true /\ 48 <= a <= 57.
Proof.
  intros Hn Hne. destruct (exists_last Hne) as (pre & a & ->).
  rewrite numeric_app in Hn. apply andb_prop in Hn as [Hp Ha].
  exists pre, a. split; [reflexivity|]. split; [exact Hp|].
  apply digit_range. unfold is_ascii_numeric in Ha; cbn in Ha.
  rewrite andb_true_r in Ha. exact Ha.
Qed.

(** ** check: one characterisation for the four lengths *)

(** What the four [check] functions compute, written once. *)
Definition check_ref (L : nat) (s : list N) : bool :=
  Nat.eqb (str_len s) L && is_ascii_numeric s &&
  (spec_check_digit s =? last s 0 - 48).

(** Decompose a numeric string of length [L] into its body and last digit. *)
Ltac split_code s L :=
  let Hn := fresh "Hn" in let Hl := fresh "Hl" in
  match goal with
  | Hn0 : is_ascii_numeric s = true, Hl0 : str_len s = L |- _ =>
      pose proof Hn0 as Hn; pose proof Hl0 as Hl;
      rewrite ascii_str_len in Hl by (apply numeric_ascii; exact Hn);
      let pre := fresh "pre" in let a := fresh "a" in
      let Hp := fresh "Hp" in let Ha := fresh "Ha" in
      destruct (numeric_snoc s Hn) as (pre & a & -> & Hp & Ha);
      [intros ->; cbn in Hl; discriminate|];
      rewrite length_app in Hl; cbn [length] in Hl;
      rewrite ?(ascii_as_bytes (pre ++ [a])) by (apply numeric_ascii; exact Hn);
      rewrite ?(ccd_value (pre ++ [a]) Hn) by (rewrite length_app; cbn; lia);
      rewrite ?(nth_error_snoc pre a (L - 1)%nat) by lia;
      unfold index; rewrite ?last_last
  end.

Lemma check_ref_eq (g : gtin) (s : list N) :
  check g s = Some (check_ref (code_len g) s).
Proof.
  pose proof (spec_check_digit_lt s) as Hlt.
  destruct g; unfold check, check_ref; cbn [code_len].
  - unfold Gtin8.check.
    destruct (Nat.eqb_spec (str_len s) 8) as [Hl0|]; [|reflexivity].
    destruct (is_ascii_numeric s) eqn:Hn0; [|reflexivity].
    split_code s 8%nat. cbn [bind].
    rewrite (nth_error_snoc pre a 7) by lia. cbn [bind].
    unfold sub_u8. destruct (N.leb_spec 48 a); [|lia]. cbn [bind ret].
    destruct (_ =? _); reflexivity.
  - unfold Gtin12.check.
    destruct (Nat.eqb_spec (str_len s) 12) as [Hl0|]; [|reflexivity].
    destruct (is_ascii_numeric s) eqn:Hn0; [|reflexivity].
    split_code s 12%nat. cbn [bind].
    unfold add_u8. destruct (N.ltb_spec (spec_check_digit (pre ++ [a]) + 48) 256);
      [|lia].
    cbn [bind ret].
    rewrite (nth_error_snoc pre a 11) by lia. cbn [bind ret andb].
    destruct (N.eqb_spec (spec_check_digit (pre ++ [a]) + 48) a);
      destruct (N.eqb_spec (spec_check_digit (pre ++ [a])) (a - 48));
      first [reflexivity | lia].
  - unfold Gtin13.check.
    destruct (is_ascii s) eqn:Ha0; cbn [negb].
    + destruct (Nat.eqb_spec (str_len s) 13) as [Hl0|]; [|reflexivity].
      rewrite (ascii_as_bytes s Ha0). unfold Gtin13.is_number.
      rewrite firstn_all2 by (rewrite <- ascii_str_len by exact Ha0; lia).
      change (forallb is_ascii_digit s) with (is_ascii_numeric s).
      destruct (is_ascii_numeric s) eqn:Hn0; [|reflexivity].
      split_code s 13%nat. cbn [negb andb].
      rewrite (nth_error_snoc pre a 12) by lia. cbn [bind].
      unfold sub_u8. destruct (N.leb_spec 48 a); [|lia]. cbn [bind ret].
      unfold Gtin13.compute_check_digit, spec_check_digit.
      rewrite firstn_app, firstn_all2 by lia.
      replace (13 - 1 - length pre)%nat with 0%nat by lia.
      rewrite app_nil_r, rev_unit. cbn [tl].
      destruct (_ =? _); reflexivity.
    + destruct (is_ascii_numeric s) eqn:Hn0.
      * rewrite (numeric_ascii s Hn0) in Ha0. discriminate.
      * rewrite andb_false_r. reflexivity.
  - unfold Gtin14.check.
    destruct (Nat.eqb_spec (str_len s) 14) as [Hl0|]; [|reflexivity].
    destruct (is_ascii_numeric s) eqn:Hn0; [|reflexivity].
    split_code s 14%nat. cbn [bind].
    unfold add_u8. destruct (N.ltb_spec (spec_check_digit (pre ++ [a]) + 48) 256);
      [|lia].
    cbn [bind ret].
    rewrite (nth_error_snoc pre a 13) by lia. cbn [bind ret andb].
    destruct (N.eqb_spec (spec_check_digit (pre ++ [a]) + 48) a);
      destruct (N.eqb_spec (spec_check_digit (pre ++ [a])) (a - 48));
      first [reflexivity | lia].
Qed.

(** ** trim and zero_pad *)

Lemma trim_start_suffix (s : list N) : exists p, s = p ++ trim_start s.
Proof.
  induction s as [|c s [p Hp]]; [exists []; reflexivity|].
  cbn [trim_start]. destruct (is_whitespace c).
  - exists (c :: p). cbn [app]. f_equal. exact Hp.
  - exists []. reflexivity.
Qed.

Lemma trim_end_prefix (s : list N) : exists q, s = trim_end s ++ q.
Proof.
  destruct (trim_start_suffix (rev s)) as [p Hp].
  exists (rev p). unfold trim_end. rewrite <- rev_app_distr, <- Hp.
  symmetry. apply rev_involutive.
Qed.

Lemma ascii_trim (s : list N) : is_ascii s = true -> is_ascii (trim s) = true.
Proof.
  intros H. unfold trim.
  destruct (trim_start_suffix s) as [p Hp].
  destruct (trim_end_prefix (trim_start s)) as [q Hq].
  rewrite Hp, ascii_app in H. apply andb_prop in H as [_ H].
  rewrite Hq, ascii_app in H. apply andb_prop in H as [H _]. exact H.
Qed.

Lemma trim_start_blank (s : list N) :
  forallb is_whitespace s = true -> trim_start s = [].
Proof.
  induction s as [|c s IH]; [reflexivity|].
  cbn [forallb trim_start]. intros H. apply andb_prop in H as [Hc Hs].
  rewrite Hc. apply IH, Hs.
Qed.

Lemma digit_not_whitespace (c : N) :
  is_ascii_digit c = true -> is_whitespace c = false.
Proof.
  intros H. apply digit_range in H.
  assert (c = 48 \/ c = 49 \/ c = 50 \/ c = 51 \/ c = 52 \/ c = 53 \/
          c = 54 \/ c = 55 \/ c = 56 \/ c = 57) by lia.
  repeat destruct H0 as [-> | H0]; try reflexivity. subst. reflexivity.
Qed.

Lemma trim_start_numeric (s : list N) :
  is_ascii_numeric s = true -> trim_start s = s.
Proof.
  destruct s as [|c s]; [reflexivity|].
  unfold is_ascii_numeric; cbn [forallb trim_start]. intros H.
  apply andb_prop in H as [Hc _]. rewrite digit_not_whitespace by exact Hc.
  reflexivity.
Qed.

Lemma trim_numeric (s : list N) : is_ascii_numeric s = true -> trim s = s.
Proof.
  intros H. unfold trim, trim_end.
  rewrite (trim_start_numeric s H), trim_start_numeric.
  - apply rev_involutive.
  - rewrite numeric_rev. exact H.
Qed.

Lemma zero_pad_shape (u : list N) (L : nat) :
  exists k, zero_pad u L = repeat 48 k ++ u.
Proof.
  unfold zero_pad. destruct (Nat.leb L (str_len u)).
  - exists 0%nat. reflexivity.
  - eexists. reflexivity.
Qed.

Lemma zero_pad_long (u : list N) (L : nat) :
  (L <= str_len u)%nat -> zero_pad u L = u.
Proof.
  intros H. unfold zero_pad. apply Nat.leb_le in H. rewrite H. reflexivity.
Qed.

(** ** fix: one characterisation for the four lengths *)

Definition fix_ref (L : nat) (s : list N) : result (list N) FixError :=
  let fixed := trim s in
  if negb (is_ascii fixed) then Err NonAsciiString else
  if Nat.ltb L (str_len fixed) then Err TooLong else
  let fixed := zero_pad fixed L in
  if check_ref L fixed then Ok fixed else Err CheckDigitIncorrect.

Lemma fix_ref_eq (g : gtin) (s : list N) :
  fix' g s = Some (fix_ref (code_len g) s).
Proof.
  pose proof (check_ref_eq g (zero_pad (trim s) (code_len g))) as E.
  destruct g; cbn [fix' check code_len] in *;
    unfold Gtin8.fix', Gtin12.fix', Gtin13.fix', Gtin14.fix', fix_ref;
    fold (trim s);
    (destruct (is_ascii (trim s)); cbn [negb]; [|reflexivity]);
    (destruct (Nat.ltb _ (str_len (trim s))); [reflexivity|]);
    rewrite E; cbn [bind];
    (destruct (check_ref _ _); reflexivity).
Qed.

Lemma fix_ref_ok (L : nat) (s r : list N) :
  fix_ref L s = Ok r -> r = zero_pad (trim s) L /\ check_ref L r = true.
Proof.
  unfold fix_ref.
  destruct (is_ascii (trim s)); cbn [negb]; [|discriminate].
  destruct (Nat.ltb L (str_len (trim s))); [discriminate|].
  destruct (check_ref L (zero_pad (trim s) L)) eqn:E; [|discriminate].
  intros H. injection H as <-. split; [reflexivity|exact E].
Qed.

Lemma check_ref_true (L : nat) (s : list N) :
  check_ref L s = true ->
  str_len s = L /\ is_ascii_numeric s = true /\
  spec_check_digit s = last s 0 - 48.
Proof.
  unfold check_ref. rewrite !andb_true_iff, Nat.eqb_eq, N.eqb_eq. tauto.
Qed.

Lemma fix_ref_valid (L : nat) (s : list N) :
  check_ref L s = true -> fix_ref L s = Ok s.
Proof.
  intros H. pose proof (check_ref_true _ _ H) as (Hl & Hn & _).
  unfold fix_ref. rewrite trim_numeric by exact Hn.
  rewrite numeric_ascii by exact Hn. cbn [negb].
  rewrite Hl, Nat.ltb_irrefl, zero_pad_long by lia. rewrite H. reflexivity.
Qed.

Lemma digit_plus_48 (v : N) : v < 10 -> is_ascii_numeric [48 + v] = true.
Proof.
  intros H. unfold is_ascii_numeric; cbn [forallb]. rewrite andb_true_r.
  unfold is_ascii_digit. apply andb_true_iff. split; apply N.leb_le; lia.
Qed.

(** * The claims *)

(** C1: for each supported length, [check code] holds iff [code] is ASCII,
    has length exactly L, consists of ASCII digits, and the check digit
    computed from it equals the digit value of its last character. *)
Theorem check_iff (g : gtin) (s : list N) :
  check g s = Some true <->
  is_ascii s = true /\ str_len s = code_len g /\ is_ascii_numeric s = true /\
  compute_check_digit (as_bytes s) = Some (last s 0 - 48).
Proof.
  rewrite check_ref_eq.
  assert (HL : (code_len g <= 14)%nat) by (destruct g; cbn; lia).
  split.
  - intros H. injection H as H. apply check_ref_true in H as (Hl & Hn & Hc).
    pose proof (numeric_ascii s Hn) as Ha.
    split; [exact Ha|]. split; [exact Hl|]. split; [exact Hn|].
    rewrite ascii_as_bytes by exact Ha.
    rewrite ccd_value
      by first [exact Hn | rewrite <- ascii_str_len by exact Ha; lia].
    rewrite Hc. reflexivity.
  - intros (Ha & Hl & Hn & Hc). f_equal.
    rewrite ascii_as_bytes in Hc by exact Ha.
    rewrite ccd_value in Hc
      by first [exact Hn | rewrite <- ascii_str_len by exact Ha; lia].
    injection Hc as Hc. unfold check_ref.
    rewrite Hl, Nat.eqb_refl, Hn, Hc, N.eqb_refl. reflexivity.
Qed.

(** For every sequence of at most 3641 ASCII digits,
    [compute_check_digit] returns (without overflowing its [u16] sums) a
    value in 0-9 equal to [(10 - (weighted_sum mod 10)) mod 10], the
    weights 3, 1, 3, ... running leftward from the digit left of the last
    position, and the value does not depend on the last byte. *)
Theorem compute_check_digit_formula (bytes : list N) :
  is_ascii_numeric bytes = true -> (length bytes <= 3641)%nat ->
  exists v, compute_check_digit bytes = Some v /\ v < 10 /\
    v = (10 - weighted_sum (tl (rev bytes)) true mod 10) mod 10 /\
    (forall x, compute_check_digit (removelast bytes ++ [x]) = Some v).
Proof.
  intros Hn Hl. exists (spec_check_digit bytes).
  split; [apply ccd_value; assumption|].
  split; [apply spec_check_digit_lt|].
  split; [reflexivity|].
  intros x. rewrite <- ccd_value by assumption.
  destruct bytes as [|b bytes'] eqn:Eb; [reflexivity|].
  rewrite <- Eb. assert (Hne : bytes <> []) by (subst; discriminate).
  destruct (exists_last Hne) as (pre & y & ->).
  rewrite removelast_last. apply ccd_last_irrelevant.
Qed.

Lemma compute_check_digit_formula_witness :
  is_ascii_numeric (s2l "036000291452") = true /\
  (length (s2l "036000291452") <= 3641)%nat /\
  exists v, compute_check_digit (s2l "036000291452") = Some v /\ v < 10 /\
    v = (10 - weighted_sum (tl (rev (s2l "036000291452"))) true mod 10) mod 10 /\
    (forall x, compute_check_digit (removelast (s2l "036000291452") ++ [x]) = Some v).
Proof.
  split; [reflexivity|]. split; [cbn; lia|].
  apply compute_check_digit_formula; [reflexivity|cbn; lia].
Defined.

(** C2 (code bug): 3642 nines are ASCII digits, yet [compute_check_digit]
    panics on them.  The loop ends with [odd = 16389] and [even = 16380];
    [3 * odd = 49167] still fits in [u16], but the addition
    [3 * odd + even = 65547] overflows it. *)
Theorem compute_check_digit_overflow :
  is_ascii_numeric (repeat 57 3642) = true /\
  ccd_loop (repeat 57 3642) 2 (length (repeat 57 3642) + 1 - 2) 0 0 =
    Some (16389, 16380) /\
  mul_u16 3 16389 = Some 49167 /\
  add_u16 49167 16380 = None /\
  compute_check_digit (repeat 57 3642) = None.
Proof.
  split; [vm_compute; reflexivity|].
  split; [vm_compute; reflexivity|].
  split; [reflexivity|].
  split; [reflexivity|].
  vm_compute. reflexivity.
Qed.

(** C3 (code bug): [fix] tests [is_ascii] on the trimmed string, so a
    non-ASCII whitespace character around the code is dropped instead of
    reported: U+3000 followed by "0" is repaired to all zeros, and U+3000
    followed by L+1 zeros is reported [TooLong], never [NonAsciiString]. *)
Theorem fix_non_ascii_whitespace (g : gtin) :
  fix' g [0x3000; 48] = Some (Ok (repeat 48 (code_len g))) /\
  fix' g (0x3000 :: repeat 48 (S (code_len g))) = Some (Err TooLong).
Proof. destruct g; split; reflexivity. Qed.

(** C4: for an ASCII input whose trimmed form is longer than L, [fix]
    reports [TooLong]; and any repaired code is zeros followed by the
    trimmed input, never a truncation of it. *)
Theorem fix_too_long (g : gtin) (s : list N) :
  is_ascii s = true ->
  ((code_len g < str_len (trim s))%nat -> fix' g s = Some (Err TooLong)) /\
  (forall r, fix' g s = Some (Ok r) -> exists k, r = repeat 48 k ++ trim s).
Proof.
  intros Ha. rewrite fix_ref_eq. pose proof (ascii_trim s Ha) as Ht. split.
  - intros Hlt. unfold fix_ref. rewrite Ht. cbn [negb].
    apply Nat.ltb_lt in Hlt. rewrite Hlt. reflexivity.
  - intros r Hr. injection Hr as Hr. apply fix_ref_ok in Hr as [-> _].
    apply zero_pad_shape.
Qed.

Lemma fix_too_long_witness :
  is_ascii (s2l " 0000000000000 ") = true /\
  fix' GTIN12 (s2l " 0000000000000 ") = Some (Err TooLong).
Proof.
  split; [reflexivity|].
  apply (fix_too_long GTIN12 (s2l " 0000000000000 ")); [reflexivity|].
  vm_compute. lia.
Defined.

(** C5: whenever [fix s] succeeds with [r], [check r] holds, [r] has
    length exactly L and consists of ASCII digits. *)
Theorem fix_ok_valid (g : gtin) (s r : list N) :
  fix' g s = Some (Ok r) ->
  check g r = Some true /\ str_len r = code_len g /\ is_ascii_numeric r = true.
Proof.
  intros H. rewrite fix_ref_eq in H. injection H as H.
  apply fix_ref_ok in H as [_ H].
  pose proof (check_ref_true _ _ H) as (Hl & Hn & _).
  rewrite check_ref_eq, H. auto.
Qed.

Lemma fix_ok_valid_witness :
  fix' GTIN12 (s2l "87248795257") = Some (Ok (s2l "087248795257")) /\
  check GTIN12 (s2l "087248795257") = Some true /\
  str_len (s2l "087248795257") = 12%nat /\
  is_ascii_numeric (s2l "087248795257") = true.
Proof.
  split; [reflexivity|].
  apply (fix_ok_valid GTIN12 (s2l "87248795257")). reflexivity.
Defined.

(** C6: L-1 ASCII digits followed by the digit that [compute_check_digit]
    produces for them (whatever byte fills the check position it ignores)
    make a code accepted by [check]. *)
Theorem check_computed_digit (g : gtin) (d : list N) (x v : N) :
  is_ascii_numeric d = true -> length d = (code_len g - 1)%nat ->
  compute_check_digit (d ++ [x]) = Some v ->
  check g (d ++ [48 + v]) = Some true.
Proof.
  intros Hd Hlen Hv. rewrite check_ref_eq. f_equal.
  assert (HL : (1 <= code_len g <= 14)%nat) by (destruct g; cbn; lia).
  rewrite (ccd_last_irrelevant d x 48) in Hv.
  rewrite ccd_value in Hv
    by first [rewrite numeric_app, Hd; reflexivity
             | rewrite length_app; cbn; lia].
  injection Hv as <-.
  pose proof (spec_check_digit_lt (d ++ [48])) as Hlt.
  assert (Hn : is_ascii_numeric (d ++ [48 + spec_check_digit (d ++ [48])]) = true)
    by (rewrite numeric_app, Hd, digit_plus_48 by exact Hlt; reflexivity).
  unfold check_ref.
  rewrite ascii_str_len by (apply numeric_ascii; exact Hn).
  rewrite length_app, Hn, (spec_check_digit_last d (48 + spec_check_digit (d ++ [48])) 48), last_last. cbn [length].
  replace (length d + 1)%nat with (code_len g) by lia.
  rewrite Nat.eqb_refl. cbn [andb]. apply N.eqb_eq. lia.
Qed.

Lemma check_computed_digit_witness :
  is_ascii_numeric (s2l "12345678901") = true /\
  length (s2l "12345678901") = (code_len GTIN12 - 1)%nat /\
  compute_check_digit (s2l "12345678901" ++ [48]) = Some 2 /\
  check GTIN12 (s2l "12345678901" ++ [48 + 2]) = Some true.
Proof.
  split; [reflexivity|]. split; [reflexivity|]. split; [reflexivity|].
  apply (check_computed_digit GTIN12 (s2l "12345678901") 48 2);
    reflexivity.
Defined.

(** C7: replacing the last character of a valid code by any other ASCII
    digit makes [check] fail. *)
Theorem check_last_digit_sensitive (g : gtin) (s : list N) (c : N) :
  check g s = Some true -> is_ascii_digit c = true -> c <> last s 0 ->
  check g (removelast s ++ [c]) = Some false.
Proof.
  intros Hs Hc Hne. rewrite check_ref_eq in *. injection Hs as Hs. f_equal.
  apply check_ref_true in Hs as (Hl & Hn & Hsp).
  destruct (numeric_snoc s Hn) as (pre & a & -> & Hp & Ha).
  { intros ->. destruct g; discriminate Hl. }
  rewrite removelast_last. rewrite last_last in Hne, Hsp.
  apply digit_range in Hc.
  unfold check_ref. rewrite (spec_check_digit_last pre c a), Hsp, last_last.
  destruct (N.eqb_spec (a - 48) (c - 48)); [lia|].
  rewrite andb_false_r. reflexivity.
Qed.

Lemma check_last_digit_sensitive_witness :
  check GTIN12 (s2l "123456789012") = Some true /\
  check GTIN12 (removelast (s2l "123456789012") ++ [51]) = Some false.
Proof.
  split; [reflexivity|].
  apply check_last_digit_sensitive; [reflexivity|reflexivity|].
  cbn. discriminate.
Defined.

(** C8: [check] is total: on every string it returns a boolean and never
    panics (no out-of-bounds index, no overflow). *)
Theorem check_total (g : gtin) (s : list N) : exists b, check g s = Some b.
Proof. rewrite check_ref_eq. eexists. reflexivity. Qed.

(** C9: a code accepted by [check] is returned unchanged by [fix]; hence
    [fix] is idempotent wherever it succeeds. *)
Theorem fix_fixed_point (g : gtin) (s : list N) :
  (check g s = Some true -> fix' g s = Some (Ok s)) /\
  (forall r, fix' g s = Some (Ok r) -> fix' g r = Some (Ok r)).
Proof.
  split.
  - intros H. rewrite check_ref_eq in H. injection H as H.
    rewrite fix_ref_eq. f_equal. apply fix_ref_valid, H.
  - intros r Hr. rewrite fix_ref_eq in *. injection Hr as Hr.
    apply fix_ref_ok in Hr as [_ Hc]. f_equal. apply fix_ref_valid, Hc.
Qed.

Lemma fix_fixed_point_witness :
  fix' GTIN14 (s2l "14567815983469") = Some (Ok (s2l "14567815983469")) /\
  fix' GTIN8 (s2l "05766796") = Some (Ok (s2l "05766796")).
Proof.
  split.
  - apply (proj1 (fix_fixed_point GTIN14 (s2l "14567815983469"))).
    reflexivity.
  - apply (proj2 (fix_fixed_point GTIN8 (s2l "5766796"))). reflexivity.
Defined.

(** C10: [fix] of the empty string, or of a string made only of
    whitespace, succeeds with the all-zeros code of length L. *)
Theorem fix_blank (g : gtin) (s : list N) :
  forallb is_whitespace s = true ->
  fix' g s = Some (Ok (repeat 48 (code_len g))).
Proof.
  intros H. rewrite fix_ref_eq. f_equal.
  assert (Ht : trim s = []).
  { unfold trim. rewrite trim_start_blank by exact H. reflexivity. }
  unfold fix_ref. rewrite Ht. destruct g; reflexivity.
Qed.

Lemma fix_blank_witness :
  fix' GTIN12 [] = Some (Ok (s2l "000000000000")) /\
  fix' GTIN13 [32; 9; 0x3000] = Some (Ok (repeat 48 13)).
Proof.
  split.
  - apply (fix_blank GTIN12 []). reflexivity.
  - apply (fix_blank GTIN13 [32; 9; 0x3000]). reflexivity.
Defined.

(** * Further properties of the code *)

(** ** zero_pad *)

Lemma str_len_app (a b : list N) : str_len (a ++ b) = (str_len a + str_len b)%nat.
Proof. unfold str_len, as_bytes. rewrite flat_map_app, length_app. reflexivity. Qed.

Lemma numeric_zeros (k : nat) : is_ascii_numeric (repeat 48 k) = true.
Proof. induction k as [|k IH]; [reflexivity|]. exact IH. Qed.

Lemma str_len_zeros (k : nat) : str_len (repeat 48 k) = k.
Proof.
  rewrite ascii_str_len by (apply numeric_ascii, numeric_zeros).
  apply repeat_length.
Qed.

Lemma str_len_zero_pad (u : list N) (n : nat) :
  str_len (zero_pad u n) = Nat.max n (str_len u).
Proof.
  unfold zero_pad. destruct (Nat.leb_spec n (str_len u)).
  - lia.
  - rewrite str_len_app, str_len_zeros. lia.
Qed.

(** X1: [zero_pad u n] has length [max n (len u)]: padding reaches exactly
    [n], and a longer input is left as it is. *)
Theorem zero_pad_length (u : list N) (n : nat) :
  str_len (zero_pad u n) = Nat.max n (str_len u).
Proof. apply str_len_zero_pad. Qed.

(** X2: [zero_pad] is idempotent. *)
Theorem zero_pad_idempotent (u : list N) (n : nat) :
  zero_pad (zero_pad u n) n = zero_pad u n.
Proof. apply zero_pad_long. rewrite str_len_zero_pad. lia. Qed.

(** ** Leading zeros do not change the check digit *)

Lemma add_u16_lt (a b c : N) : add_u16 a b = Some c -> c < 65536.
Proof.
  unfold add_u16. destruct (N.ltb_spec (a + b) 65536) as [Hlt|]; [|discriminate].
  intros H. injection H as <-. exact Hlt.
Qed.

Lemma walk_zeros (k : nat) : forall par odd even,
  odd < 65536 -> even < 65536 ->
  ccd_walk (repeat 48 k) par odd even = Some (odd, even).
Proof.
  induction k as [|k IH]; intros par odd even Ho He; [reflexivity|].
  cbn [repeat ccd_walk]. change (sub_u8 48 48) with (Some 0). cbn [bind].
  destruct par; unfold add_u16; rewrite N.add_0_r.
  - destruct (N.ltb_spec odd 65536); [|lia]. cbn [bind ret]. apply IH; assumption.
  - destruct (N.ltb_spec even 65536); [|lia]. cbn [bind ret]. apply IH; assumption.
Qed.

Lemma walk_app_zeros (k : nat) : forall l par odd even,
  odd < 65536 -> even < 65536 ->
  ccd_walk (l ++ repeat 48 k) par odd even = ccd_walk l par odd even.
Proof.
  induction l as [|b l IH]; intros par odd even Ho He.
  - apply walk_zeros; assumption.
  - cbn [app ccd_walk]. destruct (sub_u8 b 48) as [curr|]; cbn [bind]; [|reflexivity].
    destruct par.
    + destruct (add_u16 odd curr) as [o|] eqn:E; cbn [bind]; [|reflexivity].
      apply IH; [exact (add_u16_lt _ _ _ E)|exact He].
    + destruct (add_u16 even curr) as [e|] eqn:E; cbn [bind]; [|reflexivity].
      apply IH; [exact Ho|exact (add_u16_lt _ _ _ E)].
Qed.

Lemma ccd_zeros (k : nat) (d : list N) :
  compute_check_digit (repeat 48 k ++ d) = compute_check_digit d.
Proof.
  rewrite !compute_check_digit_walk. rewrite rev_app_distr, rev_repeat.
  destruct (rev d) as [|x r].
  - cbn [app]. destruct k as [|k]; [reflexivity|]. cbn [repeat tl].
    rewrite walk_zeros by lia. reflexivity.
  - cbn [app tl]. rewrite walk_app_zeros by lia. reflexivity.
Qed.

(** X3: prefixing any input with ['0'] bytes never changes what
    [compute_check_digit] returns (value, or panic). *)
Theorem compute_check_digit_leading_zeros (k : nat) (d : list N) :
  compute_check_digit (repeat 48 k ++ d) = compute_check_digit d.
Proof. apply ccd_zeros. Qed.

(** ** What fix does with short or malformed codes *)

Lemma code_len_le (g : gtin) : (1 <= code_len g <= 14)%nat.
Proof. destruct g; cbn; lia. Qed.

(** X4: after trimming, an ASCII code of length at most L that holds any
    character other than a digit (an inner space or hyphen, say) is
    rejected with [CheckDigitIncorrect]: [fix] never removes inner
    characters. *)
Theorem fix_inner_non_digit (g : gtin) (s : list N) :
  is_ascii (trim s) = true -> (str_len (trim s) <= code_len g)%nat ->
  is_ascii_numeric (trim s) = false ->
  fix' g s = Some (Err CheckDigitIncorrect).
Proof.
  intros Ha Hl Hn. rewrite fix_ref_eq. f_equal. unfold fix_ref.
  rewrite Ha. cbn [negb].
  destruct (Nat.ltb_spec (code_len g) (str_len (trim s))); [lia|].
  destruct (zero_pad_shape (trim s) (code_len g)) as [k ->].
  unfold check_ref. rewrite numeric_app, Hn, !andb_false_r. reflexivity.
Qed.

Lemma fix_inner_non_digit_witness :
  is_ascii (trim (s2l " 1234 5678 ")) = true /\
  (str_len (trim (s2l " 1234 5678 ")) <= code_len GTIN12)%nat /\
  is_ascii_numeric (trim (s2l " 1234 5678 ")) = false /\
  fix' GTIN12 (s2l " 1234 5678 ") = Some (Err CheckDigitIncorrect).
Proof.
  split; [reflexivity|]. split; [apply Nat.leb_le; reflexivity|]. split; [reflexivity|].
  apply fix_inner_non_digit; [reflexivity|apply Nat.leb_le; reflexivity|reflexivity].
Defined.

(** X5: a non-empty all-digit code (after trimming) no longer than L is
    repaired by [fix] exactly when its own last digit is the check digit
    computed from it; the zeros [fix] prepends never change the verdict. *)
Theorem fix_short_code (g : gtin) (s : list N) :
  is_ascii_numeric (trim s) = true -> trim s <> [] ->
  (str_len (trim s) <= code_len g)%nat ->
  fix' g s = Some (Ok (zero_pad (trim s) (code_len g))) <->
  compute_check_digit (trim s) = Some (last (trim s) 0 - 48).
Proof.
  intros Hn Hne Hl. pose proof (code_len_le g) as HL.
  rewrite fix_ref_eq. unfold fix_ref.
  remember (trim s) as t eqn:Et.
  pose proof (numeric_ascii t Hn) as Ha.
  rewrite Ha. cbn [negb].
  destruct (Nat.ltb_spec (code_len g) (str_len t)) as [Hgt|Hle]; [lia|].
  assert (Hzl : str_len (zero_pad t (code_len g)) = code_len g)
    by (rewrite str_len_zero_pad; lia).
  destruct (zero_pad_shape t (code_len g)) as [k Hk].
  rewrite ascii_str_len in Hl by exact Ha.
  assert (Hct : compute_check_digit t = Some (spec_check_digit t))
    by (apply ccd_value; [exact Hn|lia]).
  assert (Hnz : is_ascii_numeric (repeat 48 k ++ t) = true)
    by (rewrite numeric_app, numeric_zeros, Hn; reflexivity).
  assert (Hspec : spec_check_digit (repeat 48 k ++ t) = spec_check_digit t).
  { rewrite Hk in Hzl. rewrite ascii_str_len in Hzl by (apply numeric_ascii; exact Hnz).
    pose proof (ccd_zeros k t) as E.
    rewrite Hct, ccd_value in E by (exact Hnz || lia).
    injection E as E. exact E. }
  destruct (exists_last Hne) as (pre & a & Epa).
  assert (Hlast : last (repeat 48 k ++ t) 0 = last t 0)
    by (rewrite Epa, app_assoc, !last_last; reflexivity).
  unfold check_ref. rewrite Hk in *. rewrite Hzl, Nat.eqb_refl, Hnz, Hspec, Hlast.
  cbn [andb]. rewrite Hct.
  destruct (N.eqb_spec (spec_check_digit t) (last t 0 - 48)) as [E|E].
  - rewrite E. split; reflexivity.
  - split; intros Hok; [discriminate|]. injection Hok as Hok. contradiction.
Qed.

Lemma fix_short_code_witness :
  is_ascii_numeric (trim (s2l "87248795257 ")) = true /\
  trim (s2l "87248795257 ") <> [] /\
  (str_len (trim (s2l "87248795257 ")) <= code_len GTIN12)%nat /\
  compute_check_digit (trim (s2l "87248795257 ")) =
    Some (last (trim (s2l "87248795257 ")) 0 - 48) /\
  fix' GTIN12 (s2l "87248795257 ") =
    Some (Ok (zero_pad (trim (s2l "87248795257 ")) (code_len GTIN12))).
Proof.
  split; [reflexivity|]. split; [discriminate|]. split; [apply Nat.leb_le; reflexivity|].
  split; [reflexivity|].
  apply fix_short_code; [reflexivity|discriminate|apply Nat.leb_le; reflexivity|reflexivity].
Defined.

(** ** lib.rs: the UPC-A functions of the older API *)

(** Write each digit [d] of a concrete-length code as [x + 48]. *)
Ltac digits_as_offsets :=
  repeat match goal with
  | H : is_ascii_numeric _ = true |- _ =>
      unfold is_ascii_numeric in H; cbn [forallb] in H
  | H : _ && _ = true |- _ =>
      let Hd := fresh "Hd" in apply andb_prop in H as [Hd H]
  | H : true = true |- _ => clear H
  | H : is_ascii_digit ?d = true |- _ =>
      apply digit_range in H;
      destruct (N.le_exists_sub 48 d (proj1 H)) as (? & -> & _)
  end.

(** Discharge the overflow tests of checked arithmetic whose failing branch
    contradicts the bounds in context. *)
Ltac discharge_checks :=
  repeat (cbn [bind ret Nat.even] in *;
    match goal with
    | |- context [if ?a <? ?b then _ else _] =>
        destruct (N.ltb_spec a b); [|lia]
    | |- context [if ?a <=? ?b then _ else _] =>
        destruct (N.leb_spec a b); [|lia]
    end).

Lemma sub_u8_48 (x : N) : sub_u8 (x + 48) 48 = Some x.
Proof.
  unfold sub_u8. destruct (N.leb_spec 48 (x + 48)); [|lia].
  rewrite N.add_sub. reflexivity.
Qed.

Lemma upca_ccd_spec (upc : list N) :
  is_ascii_numeric upc = true -> length upc = 12%nat ->
  Upc.compute_upca_check_digit upc = Some (spec_check_digit upc).
Proof.
  intros Hn Hl.
  do 12 (destruct upc as [|? upc]; [discriminate|]).
  destruct upc; [|discriminate]. clear Hl.
  digits_as_offsets.
  unfold Upc.compute_upca_check_digit.
  cbn [Upc.cucd_loop index nth_error bind Nat.even].
  rewrite !sub_u8_48. cbn [bind]. unfold add_u8, Upc.mul_u8. discharge_checks.
  cbn [bind ret]. rewrite ccd_finish. unfold spec_check_digit.
  cbn [rev app tl weighted_sum negb]. rewrite !N.add_sub.
  match goal with
  | |- Some ((10 - ?a mod 10) mod 10) = Some ((10 - ?b mod 10) mod 10) =>
      replace a with b by lia
  end.
  reflexivity.
Qed.

(** X6: on twelve ASCII digits, the [u8] routine [compute_upca_check_digit]
    of lib.rs never overflows and agrees with [utils::compute_check_digit]. *)
Theorem compute_upca_check_digit_agrees (upc : list N) :
  is_ascii_numeric upc = true -> length upc = 12%nat ->
  exists d, Upc.compute_upca_check_digit upc = Some d /\
            compute_check_digit upc = Some d.
Proof.
  intros Hn Hl. exists (spec_check_digit upc).
  split; [apply upca_ccd_spec; assumption|].
  apply ccd_value; [exact Hn|lia].
Qed.

Lemma compute_upca_check_digit_agrees_witness :
  is_ascii_numeric (s2l "036000291452") = true /\
  length (s2l "036000291452") = 12%nat /\
  exists d, Upc.compute_upca_check_digit (s2l "036000291452") = Some d /\
            compute_check_digit (s2l "036000291452") = Some d.
Proof.
  split; [reflexivity|]. split; [reflexivity|].
  apply compute_upca_check_digit_agrees; reflexivity.
Defined.

Lemma digits_loop_eq (bytes : list N) : forall fuel i,
  (i + fuel <= length bytes)%nat ->
  Upc.digits_loop bytes i fuel =
    Some (forallb is_ascii_digit (firstn fuel (skipn i bytes))).
Proof.
  induction fuel as [|fuel IH]; intros i Hi; [reflexivity|].
  cbn [Upc.digits_loop].
  destruct (nth_error bytes i) as [b|] eqn:Eb;
    [|apply nth_error_None in Eb; lia].
  unfold index. rewrite Eb. cbn [bind].
  rewrite (skipn_nth_error bytes i b Eb). cbn [firstn forallb].
  unfold is_ascii_digit.
  destruct (N.ltb_spec b 48); destruct (N.ltb_spec (48 + 9) b);
    destruct (N.leb_spec 48 b); destruct (N.leb_spec b 57);
    try lia; cbn [orb andb ret]; try reflexivity.
  apply IH. lia.
Qed.

Lemma check_upca_ref (s : list N) : Upc.check_upca s = Some (check_ref 12 s).
Proof.
  unfold Upc.check_upca, check_ref.
  destruct (is_ascii s) eqn:Ha; cbn [negb].
  2:{ destruct (is_ascii_numeric s) eqn:Hn; [|rewrite !andb_false_r; reflexivity].
      rewrite (numeric_ascii s Hn) in Ha. discriminate. }
  destruct (Nat.eqb (str_len s) 12) eqn:El; cbn [negb andb]; [|reflexivity].
  apply Nat.eqb_eq in El. rewrite ascii_str_len in El by exact Ha.
  rewrite (ascii_as_bytes s Ha), digits_loop_eq by lia. cbn [bind skipn].
  rewrite firstn_all2 by lia.
  change (forallb is_ascii_digit s) with (is_ascii_numeric s).
  destruct (is_ascii_numeric s) eqn:Hn; cbn [negb]; [|reflexivity].
  rewrite upca_ccd_spec by assumption. cbn [bind].
  destruct (numeric_snoc s Hn) as (pre & a & -> & Hp & Hab);
    [intros ->; discriminate|].
  rewrite length_app in El; cbn [length] in El.
  unfold index. rewrite (nth_error_snoc pre a 11) by lia. cbn [bind].
  destruct (N.ltb_spec a 48); [lia|]. destruct (N.ltb_spec (48 + 9) a); [lia|].
  cbn [orb]. unfold sub_u8. destruct (N.leb_spec 48 a); [|lia]. cbn [bind ret].
  rewrite last_last. destruct (_ =? _); reflexivity.
Qed.

(** X7: [check_upca] of lib.rs accepts exactly the strings that
    [gtin12::check] accepts, and neither panics. *)
Theorem check_upca_eq_gtin12 (s : list N) :
  exists b, Upc.check_upca s = Some b /\ Gtin12.check s = Some b.
Proof.
  exists (check_ref 12 s). split; [apply check_upca_ref|].
  change (Gtin12.check s) with (check GTIN12 s). apply check_ref_eq.
Qed.

Lemma fix_upca_ref (s : list N) :
  Upc.fix_upca s =
    if is_ascii s then Some (map_err upca_error (fix_ref 12 s))
    else Some (Err "Cannot operate on non-ASCII data"%string).
Proof.
  unfold Upc.fix_upca, fix_ref. fold (trim s).
  destruct (is_ascii s) eqn:Ha; cbn [negb]; [|reflexivity].
  rewrite (ascii_trim s Ha). cbn [negb].
  destruct (Nat.ltb 12 (str_len (trim s))); [reflexivity|].
  change (Upc.zero_pad (trim s) 12) with (zero_pad (trim s) 12).
  rewrite check_upca_ref. cbn [bind].
  destruct (check_ref 12 _); reflexivity.
Qed.

(** X8: [fix_upca] of lib.rs rejects any input that is not ASCII before it
    trims; on ASCII input it returns what [gtin12::fix] returns, with its
    errors as messages. *)
Theorem fix_upca_gtin12 (s : list N) :
  Upc.fix_upca s =
    if is_ascii s then option_map (map_err upca_error) (Gtin12.fix' s)
    else Some (Err "Cannot operate on non-ASCII data"%string).
Proof.
  change (Gtin12.fix' s) with (fix' GTIN12 s).
  rewrite fix_ref_eq, fix_upca_ref. reflexivity.
Qed.

(** X15: what [fix_upca] returns is a fixed point of [fix_upca]. *)
Theorem fix_upca_fixed_point (s r : list N) :
  Upc.fix_upca s = Some (Ok r) -> Upc.fix_upca r = Some (Ok r).
Proof.
  rewrite fix_upca_ref. destruct (is_ascii s); [|discriminate].
  destruct (fix_ref 12 s) as [r'|e] eqn:E; cbn [map_err]; [|discriminate].
  intros H. injection H as <-.
  destruct (fix_ref_ok _ _ _ E) as [_ Hc].
  pose proof (check_ref_true _ _ Hc) as (_ & Hn & _).
  rewrite fix_upca_ref, (numeric_ascii r' Hn), (fix_ref_valid _ _ Hc).
  reflexivity.
Qed.

Lemma fix_upca_fixed_point_witness :
  Upc.fix_upca (s2l " 87248795257") = Some (Ok (s2l "087248795257")) /\
  Upc.fix_upca (s2l "087248795257") = Some (Ok (s2l "087248795257")).
Proof.
  assert (H : Upc.fix_upca (s2l " 87248795257") = Some (Ok (s2l "087248795257")))
    by reflexivity.
  split; [exact H|]. apply (fix_upca_fixed_point (s2l " 87248795257")), H.
Defined.

(** ** The [simd] builds of gtin12::check and gtin14::check *)

Lemma mod256_small (a : N) : a < 256 -> a mod 256 = a.
Proof. apply N.mod_small. Qed.

Lemma vsub_lane (x : N) : x < 256 -> (x + 48 + 256 - 48) mod 256 = x.
Proof.
  intros H. replace (x + 48 + 256 - 48) with (x + 1 * 256) by lia.
  rewrite N.Div0.mod_add. apply mod256_small, H.
Qed.

(** Drop every [mod 256] whose argument provably stays below 256, innermost
    first. *)
Ltac drop_mod256 :=
  repeat match goal with
  | |- context [?a mod 256] =>
      lazymatch a with
      | context [N.modulo _ _] => fail
      | _ => rewrite (mod256_small a) by lia
      end
  end.

Lemma simd12_ccd (pre : list N) (a : N) :
  is_ascii_numeric pre = true -> length pre = 11%nat ->
  Simd.compute_check_digit_simd (Simd.vsub ([48; 48; 48; 48] ++ pre ++ [48]) 48) =
    Some (spec_check_digit (pre ++ [a])).
Proof.
  intros Hn Hl.
  do 11 (destruct pre as [|? pre]; [discriminate|]).
  destruct pre; [|discriminate]. clear Hl.
  digits_as_offsets.
  unfold Simd.compute_check_digit_simd, Simd.vsub, Simd.lanes2, Simd.MUL,
    Simd.wrapping_sum.
  cbn [app map combine fst snd fold_left].
  repeat match goal with
  | |- context [(?x + 48 + 256 - 48) mod 256] => rewrite (vsub_lane x) by lia
  end.
  replace ((48 + 256 - 48) mod 256) with 0 by reflexivity.
  drop_mod256.
  rewrite ccd_finish. unfold spec_check_digit.
  cbn [rev app tl weighted_sum negb]. rewrite !N.add_sub.
  match goal with
  | |- Some ((10 - ?a mod 10) mod 10) = Some ((10 - ?b mod 10) mod 10) =>
      replace a with b by lia
  end.
  reflexivity.
Qed.

Lemma simd14_ccd (pre : list N) (a : N) :
  is_ascii_numeric pre = true -> length pre = 13%nat ->
  Simd.compute_check_digit_simd (Simd.vsub ([48; 48] ++ pre ++ [48]) 48) =
    Some (spec_check_digit (pre ++ [a])).
Proof.
  intros Hn Hl.
  do 13 (destruct pre as [|? pre]; [discriminate|]).
  destruct pre; [|discriminate]. clear Hl.
  digits_as_offsets.
  unfold Simd.compute_check_digit_simd, Simd.vsub, Simd.lanes2, Simd.MUL,
    Simd.wrapping_sum.
  cbn [app map combine fst snd fold_left].
  repeat match goal with
  | |- context [(?x + 48 + 256 - 48) mod 256] => rewrite (vsub_lane x) by lia
  end.
  replace ((48 + 256 - 48) mod 256) with 0 by reflexivity.
  drop_mod256.
  rewrite ccd_finish. unfold spec_check_digit.
  cbn [rev app tl weighted_sum negb]. rewrite !N.add_sub.
  match goal with
  | |- Some ((10 - ?a mod 10) mod 10) = Some ((10 - ?b mod 10) mod 10) =>
      replace a with b by lia
  end.
  reflexivity.
Qed.

Lemma simd_lane_digit (b : N) :
  negb ((57 <? b) || (b <? 48)) = is_ascii_digit b.
Proof.
  unfold is_ascii_digit.
  destruct (N.ltb_spec 57 b); destruct (N.ltb_spec b 48);
    destruct (N.leb_spec 48 b); destruct (N.leb_spec b 57);
    first [reflexivity | lia].
Qed.

Lemma check_ascii_simd_gen : forall (v : list N) (n : nat),
  (length v <= n)%nat ->
  negb (existsb (fun b => b)
    (map (fun p => fst p || snd p)
      (combine (map (fun p => snd p <? fst p) (combine v (repeat 57 n)))
               (map (fun p => fst p <? snd p) (combine v (repeat 48 n)))))) =
  is_ascii_numeric v.
Proof.
  induction v as [|b v IH]; intros n Hn; [reflexivity|].
  destruct n as [|n]; [cbn in Hn; lia|].
  cbn [repeat combine map existsb fst snd length] in *.
  rewrite negb_orb, simd_lane_digit, (IH n) by lia. reflexivity.
Qed.

(** On sixteen lanes [check_ascii_simd] tests that every lane is an ASCII
    digit. *)
Lemma check_ascii_simd_numeric (v : list N) :
  length v = 16%nat -> Simd.check_ascii_simd v = is_ascii_numeric v.
Proof.
  intros H. unfold Simd.check_ascii_simd, Simd.GT, Simd.LT, Simd.splat.
  apply check_ascii_simd_gen. lia.
Qed.

Lemma index_range_eq (bytes : list N) : forall fuel i,
  (i + fuel <= length bytes)%nat ->
  Simd.index_range bytes i fuel = Some (firstn fuel (skipn i bytes)).
Proof.
  induction fuel as [|fuel IH]; intros i Hi; [reflexivity|].
  cbn [Simd.index_range].
  destruct (nth_error bytes i) as [b|] eqn:Eb;
    [|apply nth_error_None in Eb; lia].
  unfold index. rewrite Eb. cbn [bind].
  rewrite (IH (S i)) by lia. cbn [bind ret].
  rewrite (skipn_nth_error bytes i b Eb). reflexivity.
Qed.

(** A string that is not ASCII has, among its bytes, one of 128 or more that
    is not the last byte. *)
Lemma non_ascii_byte (s : list N) :
  is_ascii s = false ->
  exists p c q, as_bytes s = p ++ c :: q /\ 128 <= c /\ q <> [].
Proof.
  induction s as [|c s IH]; [discriminate|].
  unfold is_ascii; cbn [forallb]. fold (is_ascii s).
  change (as_bytes (c :: s)) with (utf8_encode c ++ as_bytes s).
  destruct (N.ltb_spec c 128) as [Hc|Hc]; cbn [andb]; intros H.
  - destruct (IH H) as (p & c' & q & E & Hc' & Hq).
    exists (c :: p), c', q. rewrite ascii_encode, E by exact Hc.
    split; [reflexivity|]. split; assumption.
  - unfold utf8_encode.
    destruct (N.ltb_spec c 0x80); [lia|].
    destruct (N.ltb_spec c 0x800); [|destruct (N.ltb_spec c 0x10000)];
      (eexists [], _, _; split; [reflexivity|]; split; [|discriminate]);
      match goal with |- 128 <= ?k + ?t => generalize t; intros; lia end.
Qed.

Lemma non_ascii_prefix (s : list N) (n : nat) :
  is_ascii s = false -> str_len s = S n ->
  is_ascii_numeric (firstn n (as_bytes s)) = false.
Proof.
  intros Ha Hl. destruct (non_ascii_byte s Ha) as (p & c & q & E & Hc & Hq).
  unfold str_len in Hl. rewrite E in *. rewrite length_app in Hl.
  cbn [length] in Hl. destruct q as [|? q]; [congruence|]. cbn [length] in Hl.
  rewrite firstn_app, firstn_all2 by lia.
  replace (n - length p)%nat with (S (n - length p - 1)) by lia.
  cbn [firstn]. rewrite numeric_app. unfold is_ascii_numeric at 2.
  cbn [forallb]. unfold is_ascii_digit.
  destruct (N.leb_spec c 57); [lia|]. rewrite !andb_false_r. reflexivity.
Qed.

Lemma simd_last_digit (d a : N) :
  d < 10 -> (d + 48 =? a) = is_ascii_numeric [a] && (d =? a - 48).
Proof.
  intros Hd. unfold is_ascii_numeric; cbn [forallb]. unfold is_ascii_digit.
  destruct (N.eqb_spec (d + 48) a); destruct (N.leb_spec 48 a);
    destruct (N.leb_spec a 57); destruct (N.eqb_spec d (a - 48));
    first [reflexivity | lia].
Qed.

Lemma gtin12_simd_ref (s : list N) :
  Gtin12Simd.check s = Some (check_ref 12 s).
Proof.
  unfold Gtin12Simd.check, check_ref.
  destruct (Nat.eqb_spec (str_len s) 12) as [El|]; cbn [negb andb];
    [|reflexivity].
  rewrite index_range_eq by (unfold str_len in El; lia). cbn [bind skipn].
  rewrite check_ascii_simd_numeric
    by (rewrite !length_app, length_firstn; unfold str_len in El; cbn [length]; lia).
  rewrite !numeric_app.
  change (is_ascii_numeric [48; 48; 48; 48]) with true.
  change (is_ascii_numeric [48]) with true. cbn [andb].
  destruct (is_ascii s) eqn:Ha.
  - rewrite (ascii_as_bytes s Ha). rewrite ascii_str_len in El by exact Ha.
    assert (Hne : s <> []) by (intros ->; discriminate).
    destruct (exists_last Hne) as (pre & a & ->).
    rewrite length_app in El; cbn [length] in El.
    rewrite firstn_app, firstn_all2 by lia.
    replace (11 - length pre)%nat with 0%nat by lia. rewrite app_nil_r.
    rewrite numeric_app.
    destruct (is_ascii_numeric pre) eqn:Hp; cbn [andb negb]; [|reflexivity].
    rewrite (simd12_ccd pre a Hp) by lia. cbn [bind].
    pose proof (spec_check_digit_lt (pre ++ [a])) as Hlt.
    unfold add_u8. destruct (N.ltb_spec (spec_check_digit (pre ++ [a]) + 48) 256);
      [|lia].
    cbn [bind ret]. unfold index. rewrite (nth_error_snoc pre a 11) by lia.
    cbn [bind ret]. rewrite last_last, simd_last_digit by exact Hlt.
    reflexivity.
  - rewrite (non_ascii_prefix s 11 Ha El). cbn [andb negb].
    destruct (is_ascii_numeric s) eqn:Hn; [|reflexivity].
    rewrite (numeric_ascii s Hn) in Ha. discriminate.
Qed.

(** X9: with the [simd] feature, [gtin12::check] accepts exactly the strings
    the scalar [gtin12::check] accepts, and neither panics. *)
Theorem gtin12_simd_check_eq (s : list N) :
  exists b, Gtin12Simd.check s = Some b /\ Gtin12.check s = Some b.
Proof.
  exists (check_ref 12 s). split; [apply gtin12_simd_ref|].
  change (Gtin12.check s) with (check GTIN12 s). apply check_ref_eq.
Qed.

Lemma gtin14_simd_ref (s : list N) :
  Gtin14Simd.check s = Some (check_ref 14 s).
Proof.
  unfold Gtin14Simd.check, check_ref.
  destruct (Nat.eqb_spec (str_len s) 14) as [El|]; cbn [negb andb];
    [|reflexivity].
  rewrite index_range_eq by (unfold str_len in El; lia). cbn [bind skipn].
  rewrite check_ascii_simd_numeric
    by (rewrite !length_app, length_firstn; unfold str_len in El; cbn [length]; lia).
  rewrite !numeric_app.
  change (is_ascii_numeric [48; 48]) with true.
  change (is_ascii_numeric [48]) with true. cbn [andb].
  destruct (is_ascii s) eqn:Ha.
  - rewrite (ascii_as_bytes s Ha). rewrite ascii_str_len in El by exact Ha.
    assert (Hne : s <> []) by (intros ->; discriminate).
    destruct (exists_last Hne) as (pre & a & ->).
    rewrite length_app in El; cbn [length] in El.
    rewrite firstn_app, firstn_all2 by lia.
    replace (13 - length pre)%nat with 0%nat by lia. rewrite app_nil_r.
    rewrite numeric_app.
    destruct (is_ascii_numeric pre) eqn:Hp; cbn [andb negb]; [|reflexivity].
    rewrite (simd14_ccd pre a Hp) by lia. cbn [bind].
    pose proof (spec_check_digit_lt (pre ++ [a])) as Hlt.
    unfold add_u8. destruct (N.ltb_spec (spec_check_digit (pre ++ [a]) + 48) 256);
      [|lia].
    cbn [bind ret]. unfold index. rewrite (nth_error_snoc pre a 13) by lia.
    cbn [bind ret]. rewrite last_last, simd_last_digit by exact Hlt.
    reflexivity.
  - rewrite (non_ascii_prefix s 13 Ha El). cbn [andb negb].
    destruct (is_ascii_numeric s) eqn:Hn; [|reflexivity].
    rewrite (numeric_ascii s Hn) in Ha. discriminate.
Qed.

(** X10: with the [simd] feature, [gtin14::check] accepts exactly the strings
    the scalar [gtin14::check] accepts, and neither panics. *)
Theorem gtin14_simd_check_eq (s : list N) :
  exists b, Gtin14Simd.check s = Some b /\ Gtin14.check s = Some b.
Proof.
  exists (check_ref 14 s). split; [apply gtin14_simd_ref|].
  change (Gtin14.check s) with (check GTIN14 s). apply check_ref_eq.
Qed.

(** ** More on utils::compute_check_digit *)

(** X11: whenever [compute_check_digit] returns, its result is a single
    digit value. *)
Theorem compute_check_digit_lt_10 (bytes : list N) (d : N) :
  compute_check_digit bytes = Some d -> d < 10.
Proof.
  rewrite compute_check_digit_walk.
  destruct (ccd_walk _ _ _ _) as [[odd even]|]; cbn [bind]; [|discriminate].
  destruct (mul_u16 3 odd); cbn [bind]; [|discriminate].
  destruct (add_u16 _ even) as [s|]; cbn [bind]; [|discriminate].
  intros H. injection H as <-. apply N.mod_lt. lia.
Qed.

Lemma compute_check_digit_lt_10_witness :
  compute_check_digit (s2l "123456789012") = Some 2 /\ 2 < 10.
Proof.
  split; [reflexivity|].
  apply (compute_check_digit_lt_10 (s2l "123456789012")). reflexivity.
Defined.

Lemma walk_below_48 : forall ds par odd even,
  (exists b, In b ds /\ b < 48) -> ccd_walk ds par odd even = None.
Proof.
  induction ds as [|c ds IH]; intros par odd even (b & Hin & Hb);
    [destruct Hin|].
  cbn [ccd_walk]. destruct Hin as [<-|Hin].
  - unfold sub_u8. destruct (N.leb_spec 48 c); [lia|]. reflexivity.
  - destruct (sub_u8 c 48) as [curr|]; cbn [bind]; [|reflexivity].
    assert (Ex : exists b, In b ds /\ b < 48) by (exists b; auto).
    destruct par.
    + destruct (add_u16 odd curr); cbn [bind]; [|reflexivity]. apply IH, Ex.
    + destruct (add_u16 even curr); cbn [bind]; [|reflexivity]. apply IH, Ex.
Qed.

(** X12: a byte below ['0'] anywhere before the last position makes
    [compute_check_digit] panic (the [u8] subtraction [bytes[i] - 48]
    underflows); its callers must test the digits first. *)
Theorem compute_check_digit_below_zero_panics (pre : list N) (x : N) :
  (exists b, In b pre /\ b < 48) -> compute_check_digit (pre ++ [x]) = None.
Proof.
  intros Ex. rewrite compute_check_digit_walk, rev_unit. cbn [tl].
  rewrite walk_below_48; [reflexivity|].
  destruct Ex as (b & Hin & Hb). exists b. split; [rewrite <- in_rev; exact Hin|exact Hb].
Qed.

Lemma compute_check_digit_below_zero_panics_witness :
  (exists b, In b (s2l "12-4") /\ b < 48) /\
  compute_check_digit (s2l "12-4" ++ [53]) = None.
Proof.
  assert (Ex : exists b, In b (s2l "12-4") /\ b < 48).
  { exists 45. split; [cbn; auto 6|lia]. }
  split; [exact Ex|]. apply compute_check_digit_below_zero_panics, Ex.
Defined.

(** ** The four lengths nest *)

Lemma last_app_ne (l s : list N) (d : N) : s <> [] -> last (l ++ s) d = last s d.
Proof.
  intros Hs. destruct (exists_last Hs) as (pre & a & ->).
  rewrite app_assoc, !last_last. reflexivity.
Qed.

(** X13: a code of a shorter GTIN length, left-padded with ['0'] to a
    longer length, is accepted by the longer [check] exactly when the
    shorter [check] accepts it (GTIN-8 in GTIN-12, 13 and 14, GTIN-12 in
    GTIN-13 and 14, GTIN-13 in GTIN-14). *)
Theorem check_leading_zeros (g g' : gtin) (s : list N) :
  (code_len g <= code_len g')%nat ->
  check g' (repeat 48 (code_len g' - code_len g) ++ s) = check g s.
Proof.
  intros Hle. rewrite !check_ref_eq. f_equal.
  pose proof (code_len_le g) as Hg. pose proof (code_len_le g') as Hg'.
  remember (code_len g' - code_len g)%nat as k eqn:Hk.
  unfold check_ref. rewrite str_len_app, str_len_zeros, numeric_app, numeric_zeros.
  cbn [andb].
  destruct (Nat.eqb_spec (k + str_len s) (code_len g'));
    destruct (Nat.eqb_spec (str_len s) (code_len g)); try lia; cbn [andb].
  destruct (is_ascii_numeric s) eqn:Hn; cbn [andb]; [|reflexivity].
  assert (Hl : length s = code_len g)
    by (rewrite <- ascii_str_len by (apply numeric_ascii, Hn); assumption).
  assert (Hs : s <> []) by (intros ->; cbn in Hl; lia).
  rewrite last_app_ne by exact Hs.
  assert (Hz : is_ascii_numeric (repeat 48 k ++ s) = true)
    by (rewrite numeric_app, numeric_zeros, Hn; reflexivity).
  pose proof (ccd_zeros k s) as E.
  rewrite (ccd_value _ Hz), (ccd_value _ Hn) in E
    by (rewrite ?length_app, ?repeat_length; lia).
  injection E as ->. reflexivity.
Qed.

Lemma check_leading_zeros_witness :
  (code_len GTIN12 <= code_len GTIN14)%nat /\
  check GTIN14 (repeat 48 (code_len GTIN14 - code_len GTIN12) ++ s2l "036000291452") =
    check GTIN12 (s2l "036000291452").
Proof.
  split; [cbn; lia|]. apply check_leading_zeros. cbn; lia.
Defined.
